(** * Infrastructure stacks for a Strapi CMS and a Next.js front-end

    A shallow embedding of the two CDK stack classes ([StrapiStack] in
    [lib/strapi.ts], [NextjsStack] in [lib/nextjs.ts]) and of the entry point
    [bin/infra-sample.ts].

    A stack constructor is a straight-line sequence of [new X(this, id, props)]
    declarations and of method calls that mutate an already declared construct
    ([addIngressRule], [addAsgCapacityProvider], [addContainer]).  The scope
    [this] is modelled as a store of construct nodes; a construct object is the
    address of its node, so that two mentions of the same object are the same
    address, and a mutation is an update of the store at that address.

    Two objects are changed behind the back of the constructor.  The role and
    the user data that it hands to the launch template are the role and the user
    data of the auto-scaling group that uses the template: declaring the group
    with [init] and [signals], and registering it as capacity of the cluster,
    add statements to the one and commands to the other.  What is added is
    rendered by aws-cdk-lib and holds hashes and deploy-time references; the
    development takes it as a parameter, [Rendering]. *)

From Stdlib Require Import ZArith Ascii.
From stdpp Require Import base list strings pretty.

Local Open Scope Z_scope.

(** ** aws-cdk-lib core *)

(** A construct object: the address of its node in the enclosing scope. *)
Definition Ref := nat.

Module Core.

Inductive TimeUnit := Seconds | Minutes.

Record Duration := { amount : Z; unit : TimeUnit }.

Definition seconds (n : Z) : Duration := {| amount := n; unit := Seconds |}.
Definition minutes (n : Z) : Duration := {| amount := n; unit := Minutes |}.

Definition toSeconds (d : Duration) : Z :=
  match unit d with
  | Seconds => amount d
  | Minutes => amount d * 60
  end.

(** [env] of [StackProps]: both fields are read from the process
    environment and may be undefined. *)
Record Environment := { account : option string; region : option string }.

Record CfnOutput := { value : string }.

End Core.

(** ** aws-cdk-lib/aws-ec2 *)

Module Ec2.

Record VpcLookup := { vpcId : string }.

Inductive Peer :=
| anyIpv4
| anyIpv6
| ipv4 (cidr : string).

Inductive Protocol := TCP | UDP | ALL.

Record Port := { protocol : Protocol; fromPort : Z; toPort : Z }.

Definition tcp (p : Z) : Port :=
  {| protocol := TCP; fromPort := p; toPort := p |}.

Record IngressRule := { peer : Peer; connection : Port }.

Record SecurityGroup := {
  vpc : Ref;
  description : string;
  allowAllOutbound : bool;
  securityGroupName : string;
  ingressRules : list IngressRule
}.

Record KeyPair := { keyPairName : string }.

Inductive InstanceClass := T2 | T3.
Inductive InstanceSize := MICRO | SMALL.
Record InstanceType := { class : InstanceClass; size : InstanceSize }.
Definition InstanceType_of (c : InstanceClass) (s : InstanceSize) :=
  {| class := c; size := s |}.

(** [UserData.forLinux()] starts with no command; [addCommands] appends. *)
Record UserData := { lines : list string }.
Definition forLinux : UserData := {| lines := [] |}.
Definition addCommands (u : UserData) (cmds : list string) : UserData :=
  {| lines := lines u ++ cmds |}.

Inductive MachineImage := EcsOptimizedImage_amazonLinux2023.

Record LaunchTemplate := {
  launchTemplateName : string;
  securityGroup : Ref;
  instanceType : InstanceType;
  keyPair : Ref;
  role : Ref;
  machineImage : MachineImage;
  userData : UserData
}.

Record InitConfig := { elements : list string }.

Record CloudFormationInit := {
  configSets : list (string * list string);
  configs : list (string * InitConfig)
}.

End Ec2.

(** ** aws-cdk-lib/aws-iam *)

Module Iam.

Inductive Principal := ServicePrincipal (service : string).

Record PolicyStatement := { resources : list string; actions : list string }.

Record PolicyDocument := { statements : list PolicyStatement }.

Inductive ManagedPolicy := fromAwsManagedPolicyName (name : string).

(** Besides its props a role has a default policy: the statements added
    to it by [addToPrincipalPolicy] once it is declared. *)
Record Role := {
  roleName : string;
  assumedBy : Principal;
  inlinePolicies : list (string * PolicyDocument);
  managedPolicies : list ManagedPolicy;
  defaultPolicy : list PolicyStatement
}.

(** The policies a role carries, each as its list of statements: the
    inline policies of its props, and its default policy when it has one. *)
Definition policies (r : Role) : list (list PolicyStatement) :=
  ((fun p => statements (snd p)) <$> inlinePolicies r)
    ++ match defaultPolicy r with
       | [] => []
       | _ :: _ => [defaultPolicy r]
       end.

End Iam.

(** ** aws-cdk-lib/aws-autoscaling *)

Module Autoscaling.

Inductive TerminationPolicy := OLDEST_INSTANCE | NEWEST_INSTANCE | DEFAULT.
Inductive Monitoring := BASIC | DETAILED.

Inductive HealthCheck := ec2 (grace : Core.Duration).

Definition grace_of (h : HealthCheck) : Core.Duration :=
  match h with ec2 g => g end.

Inductive Signals := waitForAll (timeout : Core.Duration).

Record ApplyCloudFormationInitOptions := {
  includeUrl : bool;
  includeRole : bool;
  printLog : bool
}.

Record AutoScalingGroup := {
  autoScalingGroupName : string;
  vpc : Ref;
  desiredCapacity : Z;
  minCapacity : Z;
  maxCapacity : Z;
  terminationPolicies : list TerminationPolicy;
  instanceMonitoring : Monitoring;
  init : Ec2.CloudFormationInit;
  initOptions : ApplyCloudFormationInitOptions;
  launchTemplate : Ref;
  healthCheck : HealthCheck;
  signals : Signals
}.

End Autoscaling.

(** ** aws-cdk-lib/aws-logs and aws-cdk-lib/aws-ecr *)

Module Logs.
Record LogGroupRef := { logGroupName : string }.
End Logs.

Module Ecr.
Record RepositoryRef := { repositoryName : string }.
End Ecr.

(** ** aws-cdk-lib/aws-ecs *)

Module Ecs.

Inductive Protocol := TCP | UDP.

Record PortMapping := { containerPort : Z; hostPort : Z; protocol : Protocol }.

Record HealthCheck := {
  command : list string;
  interval : Core.Duration;
  timeout : Core.Duration;
  retries : Z;
  startPeriod : Core.Duration
}.

Record AwsLogDriver := { streamPrefix : string; logGroup : Ref }.

Inductive ContainerImage := fromEcrRepository (repo : Ref).

Record ContainerDefinition := {
  image : ContainerImage;
  cpu : Z;
  memoryReservationMiB : Z;
  portMappings : list PortMapping;
  logging : AwsLogDriver;
  containerName : string;
  healthCheck : HealthCheck
}.

(** The containers are the children of the task definition, each under
    its own construct id, in the order of the [addContainer] calls. *)
Record Ec2TaskDefinition := {
  family : string;
  containers : list (string * ContainerDefinition)
}.

Record Cluster := {
  vpc : Ref;
  clusterName : string;
  capacityProviders : list Ref
}.

Record AsgCapacityProvider := {
  autoScalingGroup : Ref;
  enableManagedTerminationProtection : bool
}.

Record Ec2Service := {
  cluster : Ref;
  taskDefinition : Ref;
  desiredCount : Z;
  serviceName : string;
  minHealthyPercent : Z;
  maxHealthyPercent : Z
}.

End Ecs.

(** ** Constructs, scopes and the declaration monad *)

Inductive Resource :=
| Vpc (v : Ec2.VpcLookup)
| SecurityGroup (g : Ec2.SecurityGroup)
| KeyPair (k : Ec2.KeyPair)
| Role (r : Iam.Role)
| Cluster (c : Ecs.Cluster)
| LaunchTemplate (t : Ec2.LaunchTemplate)
| AutoScalingGroup (a : Autoscaling.AutoScalingGroup)
| AsgCapacityProvider (p : Ecs.AsgCapacityProvider)
| LogGroup (l : Logs.LogGroupRef)
| Ec2TaskDefinition (t : Ecs.Ec2TaskDefinition)
| Repository (r : Ecr.RepositoryRef)
| Ec2Service (s : Ecs.Ec2Service)
| CfnOutput (o : Core.CfnOutput).

(** A child of a scope: the construct id it was declared under, and what
    it declares. *)
Record Node := { nodeId : string; resource : Resource }.

Abbreviation Scope := (list Node).

(** Declarations thread the scope they add to. *)
Definition Build (A : Type) : Type := Scope -> A * Scope.

Definition ret {A} (a : A) : Build A := fun s => (a, s).

Definition bind {A B} (c : Build A) (k : A -> Build B) : Build B :=
  fun s => let '(a, s') := c s in k a s'.

Notation "x <- c ;; k" := (bind c (fun x => k))
  (at level 100, c at next level, right associativity).
Notation "c ;; k" := (bind c (fun _ => k))
  (at level 100, right associativity).

(** [new X(this, id, props)]: the construct becomes the last child of the
    scope, and the object is its address there. *)
Definition new (id : string) (r : Resource) : Build Ref :=
  fun s => (length s, s ++ [{| nodeId := id; resource := r |}]).

(** A method that changes the construct at address [o] in place. *)
Definition mutate (o : Ref) (f : Resource -> Resource) : Build unit :=
  fun s =>
    (tt, alter (fun n => {| nodeId := nodeId n; resource := f (resource n) |}) o s).

(** [securityGroup.addIngressRule(peer, connection)] *)
Definition addIngressRule (securityGroup : Ref) (peer : Ec2.Peer)
    (connection : Ec2.Port) : Build unit :=
  mutate securityGroup (fun r =>
    match r with
    | SecurityGroup g =>
        SecurityGroup
          {| Ec2.vpc := Ec2.vpc g;
             Ec2.description := Ec2.description g;
             Ec2.allowAllOutbound := Ec2.allowAllOutbound g;
             Ec2.securityGroupName := Ec2.securityGroupName g;
             Ec2.ingressRules :=
               Ec2.ingressRules g
                 ++ [{| Ec2.peer := peer; Ec2.connection := connection |}] |}
    | _ => r
    end).

(** [taskDef.addContainer(id, props)]: the container is declared in the
    scope of the task definition. *)
Definition addContainer (taskDef : Ref) (id : string)
    (props : Ecs.ContainerDefinition) : Build unit :=
  mutate taskDef (fun r =>
    match r with
    | Ec2TaskDefinition t =>
        Ec2TaskDefinition
          {| Ecs.family := Ecs.family t;
             Ecs.containers := Ecs.containers t ++ [(id, props)] |}
    | _ => r
    end).

(** [service.serviceName] *)
Definition serviceName (service : Ref) : Build string :=
  fun s =>
    (match resource <$> s !! service with
     | Some (Ec2Service v) => Ecs.serviceName v
     | _ => ""
     end, s).

(** ** Stacks *)

Record StackProps := { env : Core.Environment; vpcId : string }.

(** What [super(scope, id, props)] and the parameter property [id] set up
    before the first declaration.  The stack is declared directly under the
    app and its props carry no stack name, so that it is named by its id. *)
Record StackBase := {
  id : string;
  environment : Core.Environment;
  stackName : string
}.

Definition super (id : string) (props : StackProps) : StackBase :=
  {| id := id; environment := env props; stackName := id |}.

Record Stack := { base : StackBase; children : Scope }.

Definition declare (this : StackBase) (body : Build unit) : Stack :=
  {| base := this; children := snd (body []) |}.

(** ** What the library adds to the user data and to the role *)

(** The text that aws-cdk-lib renders at the two calls below.  It holds
    hashes (a fingerprint of the init configuration, the logical ids of the
    constructs) and references that are resolved at deployment, so that it is a
    parameter here.
    - [attachCommands this id props]: the commands that
      [CloudFormationInit.attach] appends to the user data of the auto-scaling
      group declared under [id] with [props]: the fingerprint, and the
      sub-shell that runs [cfn-init] and the [cfn-signal] of the library;
    - [attachGrants this]: the statements it grants to the role of the group;
    - [registerCommands this id]: the commands that registering the group as
      capacity of the cluster declared under [id] appends to the same user
      data, the last of which writes [ECS_CLUSTER] to the agent configuration;
    - [registerGrants this id]: the statements that it grants to the same
      role. *)
Record Rendering := {
  attachCommands :
    StackBase -> string -> Autoscaling.AutoScalingGroup -> list string;
  attachGrants : StackBase -> list Iam.PolicyStatement;
  registerCommands : StackBase -> string -> list string;
  registerGrants : StackBase -> string -> list Iam.PolicyStatement
}.

(** The construct id at an address. *)
Definition idAt (o : Ref) : Build string :=
  fun s => (default "" (nodeId <$> s !! o), s).

(** [userData.addCommands(...)] on the user data of a launch template. *)
Definition addCommandsAt (launchTemplate : Ref) (cmds : list string)
    : Build unit :=
  mutate launchTemplate (fun r =>
    match r with
    | LaunchTemplate t =>
        LaunchTemplate
          {| Ec2.launchTemplateName := Ec2.launchTemplateName t;
             Ec2.securityGroup := Ec2.securityGroup t;
             Ec2.instanceType := Ec2.instanceType t;
             Ec2.keyPair := Ec2.keyPair t;
             Ec2.role := Ec2.role t;
             Ec2.machineImage := Ec2.machineImage t;
             Ec2.userData := Ec2.addCommands (Ec2.userData t) cmds |}
    | _ => r
    end).

(** [role.addToPrincipalPolicy(statement)], for each of the statements. *)
Definition addToPrincipalPolicy (role : Ref)
    (statements : list Iam.PolicyStatement) : Build unit :=
  mutate role (fun r =>
    match r with
    | Role x =>
        Role
          {| Iam.roleName := Iam.roleName x;
             Iam.assumedBy := Iam.assumedBy x;
             Iam.inlinePolicies := Iam.inlinePolicies x;
             Iam.managedPolicies := Iam.managedPolicies x;
             Iam.defaultPolicy := Iam.defaultPolicy x ++ statements |}
    | _ => r
    end).

(** The launch template of an auto-scaling group, and the role of a launch
    template: the objects behind [autoScalingGroup.userData] and
    [autoScalingGroup.role]. *)
Definition templateOf (s : Scope) (autoScalingGroup : Ref) : option Ref :=
  match resource <$> s !! autoScalingGroup with
  | Some (AutoScalingGroup a) => Some (Autoscaling.launchTemplate a)
  | _ => None
  end.

Definition roleOf (s : Scope) (launchTemplate : Ref) : option Ref :=
  match resource <$> s !! launchTemplate with
  | Some (LaunchTemplate t) => Some (Ec2.role t)
  | _ => None
  end.

(** [autoScalingGroup.addUserData(...)] *)
Definition addUserData (autoScalingGroup : Ref) (cmds : list string)
    : Build unit :=
  fun s =>
    match templateOf s autoScalingGroup with
    | Some t => addCommandsAt t cmds s
    | None => (tt, s)
    end.

(** [autoScalingGroup.addToRolePolicy(statement)] *)
Definition addToRolePolicy (autoScalingGroup : Ref)
    (statements : list Iam.PolicyStatement) : Build unit :=
  fun s =>
    match templateOf s autoScalingGroup ≫= roleOf s with
    | Some r => addToPrincipalPolicy r statements s
    | None => (tt, s)
    end.

(** [new AutoScalingGroup(this, id, props)] with [launchTemplate], [init]
    and [signals] in its props: once the group is declared the init
    configuration is attached to it, which grants to the role and appends to
    the user data of the launch template. *)
Definition newAutoScalingGroup (cdk : Rendering) (this : StackBase)
    (id : string) (props : Autoscaling.AutoScalingGroup) : Build Ref :=
  autoScalingGroup <- new id (AutoScalingGroup props) ;;
  addToRolePolicy autoScalingGroup (attachGrants cdk this) ;;
  addUserData autoScalingGroup (attachCommands cdk this id props) ;;
  ret autoScalingGroup.

(** [cluster.addAsgCapacityProvider(provider)]: the group of the provider
    is tied to the cluster, which appends to its user data and grants to its
    role, and the provider becomes a capacity provider of the cluster. *)
Definition addAsgCapacityProvider (cdk : Rendering) (this : StackBase)
    (cluster provider : Ref) : Build unit :=
  clusterId <- idAt cluster ;;
  (fun s =>
     match resource <$> s !! provider with
     | Some (AsgCapacityProvider p) =>
         (addUserData (Ecs.autoScalingGroup p)
            (registerCommands cdk this clusterId) ;;
          addToRolePolicy (Ecs.autoScalingGroup p)
            (registerGrants cdk this clusterId)) s
     | _ => (tt, s)
     end) ;;
  mutate cluster (fun r =>
    match r with
    | Cluster c =>
        Cluster
          {| Ecs.vpc := Ecs.vpc c;
             Ecs.clusterName := Ecs.clusterName c;
             Ecs.capacityProviders := Ecs.capacityProviders c ++ [provider] |}
    | _ => r
    end).

(** ** [lib/strapi.ts] *)

Module StrapiStack.
Section Libraries.

(** [startCase] of lodash, the title-casing of a name. *)
Variable startCase : string -> string.

(** What aws-cdk-lib renders. *)
Variable cdk : Rendering.

Definition getConstructId (this : StackBase) (name : string) : string :=
  "stack-" +:+ id this +:+ "-" +:+ startCase name.

Definition constructor (id : string) (props : StackProps) : Stack :=
  let this := super id props in
  declare this (
    (* vpc *)
    vpc <- new "vpc" (Vpc {| Ec2.vpcId := vpcId props |}) ;;

    (* Create a security group *)
    securityGroup <- new (getConstructId this "sg") (SecurityGroup
      {| Ec2.vpc := vpc;
         Ec2.description := "Strapi Security Group";
         Ec2.allowAllOutbound := true;
         Ec2.securityGroupName := getConstructId this "sg";
         Ec2.ingressRules := [] |}) ;;

    addIngressRule securityGroup Ec2.anyIpv4 (Ec2.tcp 22) ;;
    addIngressRule securityGroup Ec2.anyIpv4 (Ec2.tcp 80) ;;
    addIngressRule securityGroup Ec2.anyIpv4 (Ec2.tcp 443) ;;
    addIngressRule securityGroup Ec2.anyIpv4 (Ec2.tcp 1337) ;;

    (* keypair *)
    keyPair <- new (getConstructId this "keyPair") (KeyPair
      {| Ec2.keyPairName := getConstructId this "keyPair" |}) ;;

    (* Create a role for the EC2 instance to assume *)
    role <- new (getConstructId this "role") (Role
      {| Iam.roleName := getConstructId this "role";
         Iam.assumedBy := Iam.ServicePrincipal "ec2.amazonaws.com";
         Iam.inlinePolicies :=
           [("RetentionPolicy",
             {| Iam.statements :=
                  [{| Iam.resources := ["*"];
                      Iam.actions := ["logs:PutRetentionPolicy"] |}] |})];
         Iam.managedPolicies :=
           [Iam.fromAwsManagedPolicyName "AmazonSSMManagedInstanceCore";
            Iam.fromAwsManagedPolicyName "CloudWatchAgentServerPolicy";
            Iam.fromAwsManagedPolicyName
              "service-role/AWSAppRunnerServicePolicyForECRAccess";
            Iam.fromAwsManagedPolicyName
              "service-role/AmazonEC2ContainerServiceforEC2Role"];
         (* a role is declared without a default policy *)
         Iam.defaultPolicy := [] |}) ;;

    (* ECS Cluster *)
    cluster <- new (getConstructId this "cluster") (Cluster
      {| Ecs.vpc := vpc;
         Ecs.clusterName := "nextjs_strapi";
         Ecs.capacityProviders := [] |}) ;;

    (* User Data *)
    let userData := Ec2.addCommands Ec2.forLinux
      ["#!/bin/bash";
       "yum update -y";
       "yum install -y aws-cfn-bootstrap";
       "/opt/aws/bin/cfn-signal --stack " +:+ stackName this
         +:+ " --resource " +:+ getConstructId this "asg"
         +:+ " --region us-east-1 --exit-code $?"] in

    launchTemplate <- new (getConstructId this "instance") (LaunchTemplate
      {| Ec2.launchTemplateName := "strapi";
         Ec2.securityGroup := securityGroup;
         Ec2.instanceType := Ec2.InstanceType_of Ec2.T2 Ec2.MICRO;
         Ec2.keyPair := keyPair;
         Ec2.role := role;
         Ec2.machineImage := Ec2.EcsOptimizedImage_amazonLinux2023;
         Ec2.userData := userData |}) ;;

    autoScalingGroup <- newAutoScalingGroup cdk this (getConstructId this "asg") (
      {| Autoscaling.autoScalingGroupName := getConstructId this "asg";
         Autoscaling.vpc := vpc;
         Autoscaling.desiredCapacity := 1;
         Autoscaling.minCapacity := 1;
         Autoscaling.maxCapacity := 1;
         Autoscaling.terminationPolicies := [Autoscaling.OLDEST_INSTANCE];
         Autoscaling.instanceMonitoring := Autoscaling.BASIC;
         Autoscaling.init :=
           {| Ec2.configSets := [("default", ["config"])];
              Ec2.configs := [("config", {| Ec2.elements := [] |})] |};
         Autoscaling.initOptions :=
           {| Autoscaling.includeUrl := true;
              Autoscaling.includeRole := true;
              Autoscaling.printLog := true |};
         Autoscaling.launchTemplate := launchTemplate;
         Autoscaling.healthCheck := Autoscaling.ec2 (Core.minutes 5);
         Autoscaling.signals := Autoscaling.waitForAll (Core.minutes 5) |}) ;;

    provider <- new (getConstructId this "AsgCapacityProvider")
      (AsgCapacityProvider
        {| Ecs.autoScalingGroup := autoScalingGroup;
           Ecs.enableManagedTerminationProtection := false |}) ;;
    addAsgCapacityProvider cdk this cluster provider ;;

    (* Cloudwatch *)
    logGroup <- new (getConstructId this "logGroup") (LogGroup
      {| Logs.logGroupName := "strapi" |}) ;;
    let logging :=
      {| Ecs.streamPrefix := "strapi"; Ecs.logGroup := logGroup |} in

    taskDef <- new "strapi" (Ec2TaskDefinition
      {| Ecs.family := "strapi"; Ecs.containers := [] |}) ;;

    repo <- new (getConstructId this "repo") (Repository
      {| Ecr.repositoryName := "strapi-sample" |}) ;;

    addContainer taskDef (getConstructId this "strapiContainer")
      {| Ecs.image := Ecs.fromEcrRepository repo;
         Ecs.cpu := 256;
         Ecs.memoryReservationMiB := 256;
         Ecs.portMappings :=
           [{| Ecs.containerPort := 1337;
               Ecs.hostPort := 80;
               Ecs.protocol := Ecs.TCP |}];
         Ecs.logging := logging;
         Ecs.containerName := "strapi";
         Ecs.healthCheck :=
           {| Ecs.command :=
                ["CMD-SHELL"; "curl -f http://localhost:1337 || exit 1"];
              Ecs.interval := Core.seconds 30;
              Ecs.timeout := Core.seconds 5;
              Ecs.retries := 2;
              Ecs.startPeriod := Core.seconds 60 |} |} ;;

    service <- new (getConstructId this "strapi") (Ec2Service
      {| Ecs.cluster := cluster;
         Ecs.taskDefinition := taskDef;
         Ecs.desiredCount := 1;
         Ecs.serviceName := getConstructId this "service";
         Ecs.minHealthyPercent := 0;
         Ecs.maxHealthyPercent := 100 |}) ;;

    name <- serviceName service ;;
    _ <- new "Service Name" (CfnOutput {| Core.value := name |}) ;;
    ret tt).

End Libraries.
End StrapiStack.

(** ** [lib/nextjs.ts] *)

Module NextjsStack.
Section Libraries.

(** [startCase] of lodash, the title-casing of a name. *)
Variable startCase : string -> string.

(** What aws-cdk-lib renders. *)
Variable cdk : Rendering.

Definition getConstructId (this : StackBase) (name : string) : string :=
  "stack-" +:+ id this +:+ "-" +:+ startCase name.

Definition constructor (id : string) (props : StackProps) : Stack :=
  let this := super id props in
  declare this (
    (* vpc *)
    vpc <- new "vpc" (Vpc {| Ec2.vpcId := vpcId props |}) ;;

    (* Create a security group *)
    securityGroup <- new (getConstructId this "sg") (SecurityGroup
      {| Ec2.vpc := vpc;
         Ec2.description := "Nextjs Security Group";
         Ec2.allowAllOutbound := true;
         Ec2.securityGroupName := getConstructId this "sg";
         Ec2.ingressRules := [] |}) ;;

    addIngressRule securityGroup Ec2.anyIpv4 (Ec2.tcp 22) ;;
    addIngressRule securityGroup Ec2.anyIpv4 (Ec2.tcp 80) ;;
    addIngressRule securityGroup Ec2.anyIpv4 (Ec2.tcp 443) ;;
    addIngressRule securityGroup Ec2.anyIpv4 (Ec2.tcp 3000) ;;

    (* keypair *)
    keyPair <- new (getConstructId this "keyPair") (KeyPair
      {| Ec2.keyPairName := getConstructId this "keyPair" |}) ;;

    (* Create a role for the EC2 instance to assume *)
    role <- new (getConstructId this "role") (Role
      {| Iam.roleName := getConstructId this "role";
         Iam.assumedBy := Iam.ServicePrincipal "ec2.amazonaws.com";
         Iam.inlinePolicies :=
           [("RetentionPolicy",
             {| Iam.statements :=
                  [{| Iam.resources := ["*"];
                      Iam.actions := ["logs:PutRetentionPolicy"] |}] |})];
         Iam.managedPolicies :=
           [Iam.fromAwsManagedPolicyName "AmazonSSMManagedInstanceCore";
            Iam.fromAwsManagedPolicyName "CloudWatchAgentServerPolicy";
            Iam.fromAwsManagedPolicyName
              "service-role/AWSAppRunnerServicePolicyForECRAccess";
            Iam.fromAwsManagedPolicyName
              "service-role/AmazonEC2ContainerServiceforEC2Role"];
         (* a role is declared without a default policy *)
         Iam.defaultPolicy := [] |}) ;;

    (* ECS Cluster *)
    cluster <- new (getConstructId this "cluster") (Cluster
      {| Ecs.vpc := vpc;
         Ecs.clusterName := "nextjs";
         Ecs.capacityProviders := [] |}) ;;

    (* User Data *)
    let userData := Ec2.addCommands Ec2.forLinux
      ["#!/bin/bash";
       "yum update -y";
       "yum install -y aws-cfn-bootstrap";
       "/opt/aws/bin/cfn-signal --stack " +:+ stackName this
         +:+ " --resource " +:+ getConstructId this "asg"
         +:+ " --region us-east-1 --exit-code $?"] in

    launchTemplate <- new (getConstructId this "template") (LaunchTemplate
      {| Ec2.launchTemplateName := "next";
         Ec2.securityGroup := securityGroup;
         Ec2.instanceType := Ec2.InstanceType_of Ec2.T2 Ec2.MICRO;
         Ec2.keyPair := keyPair;
         Ec2.role := role;
         Ec2.machineImage := Ec2.EcsOptimizedImage_amazonLinux2023;
         Ec2.userData := userData |}) ;;

    autoScalingGroup <- newAutoScalingGroup cdk this (getConstructId this "asg") (
      {| Autoscaling.autoScalingGroupName := getConstructId this "asg";
         Autoscaling.vpc := vpc;
         Autoscaling.desiredCapacity := 1;
         Autoscaling.minCapacity := 1;
         Autoscaling.maxCapacity := 1;
         Autoscaling.terminationPolicies := [Autoscaling.OLDEST_INSTANCE];
         Autoscaling.instanceMonitoring := Autoscaling.BASIC;
         Autoscaling.init :=
           {| Ec2.configSets := [("default", ["config"])];
              Ec2.configs := [("config", {| Ec2.elements := [] |})] |};
         Autoscaling.initOptions :=
           {| Autoscaling.includeUrl := true;
              Autoscaling.includeRole := true;
              Autoscaling.printLog := true |};
         Autoscaling.launchTemplate := launchTemplate;
         Autoscaling.healthCheck := Autoscaling.ec2 (Core.minutes 5);
         Autoscaling.signals := Autoscaling.waitForAll (Core.minutes 5) |}) ;;

    provider <- new (getConstructId this "AsgCapacityProvider")
      (AsgCapacityProvider
        {| Ecs.autoScalingGroup := autoScalingGroup;
           Ecs.enableManagedTerminationProtection := false |}) ;;
    addAsgCapacityProvider cdk this cluster provider ;;

    (* Cloudwatch *)
    logGroup <- new (getConstructId this "logGroup") (LogGroup
      {| Logs.logGroupName := "nextjs" |}) ;;
    let logging :=
      {| Ecs.streamPrefix := "nextjs"; Ecs.logGroup := logGroup |} in

    taskDef <- new "nextjs" (Ec2TaskDefinition
      {| Ecs.family := "nextjs"; Ecs.containers := [] |}) ;;

    repo <- new (getConstructId this "repo") (Repository
      {| Ecr.repositoryName := "nextjs-sample" |}) ;;

    addContainer taskDef (getConstructId this "nextjsContainer")
      {| Ecs.image := Ecs.fromEcrRepository repo;
         Ecs.cpu := 256;
         Ecs.memoryReservationMiB := 256;
         Ecs.portMappings :=
           [{| Ecs.containerPort := 3000;
               Ecs.hostPort := 80;
               Ecs.protocol := Ecs.TCP |}];
         Ecs.logging := logging;
         Ecs.containerName := "nextjs";
         Ecs.healthCheck :=
           {| Ecs.command :=
                ["CMD-SHELL"; "curl -f http://localhost:3000 || exit 1"];
              Ecs.interval := Core.seconds 30;
              Ecs.timeout := Core.seconds 5;
              Ecs.retries := 2;
              Ecs.startPeriod := Core.seconds 60 |} |} ;;

    service <- new (getConstructId this "nextjs") (Ec2Service
      {| Ecs.cluster := cluster;
         Ecs.taskDefinition := taskDef;
         Ecs.desiredCount := 1;
         Ecs.serviceName := getConstructId this "service";
         Ecs.minHealthyPercent := 0;
         Ecs.maxHealthyPercent := 100 |}) ;;

    name <- serviceName service ;;
    _ <- new "Service Name" (CfnOutput {| Core.value := name |}) ;;
    ret tt).

End Libraries.
End NextjsStack.

(** ** [bin/infra-sample.ts] *)

Module InfraSample.

Definition commonVpcId : string := "vpc-0c92b6779493dfa0c".

(** [process.env.CDK_DEFAULT_ACCOUNT] and [process.env.CDK_DEFAULT_REGION]
    are the two inputs of the program; either may be undefined. *)
Definition commonStackProps (CDK_DEFAULT_ACCOUNT CDK_DEFAULT_REGION : option string)
    : Core.Environment :=
  {| Core.account := CDK_DEFAULT_ACCOUNT; Core.region := CDK_DEFAULT_REGION |}.

Section Libraries.
Variable startCase : string -> string.
Variable cdk : Rendering.

(** The stacks of the app, in the order they are declared. *)
Definition app (CDK_DEFAULT_ACCOUNT CDK_DEFAULT_REGION : option string)
    : list Stack :=
  [ StrapiStack.constructor startCase cdk "strapi"
      {| env := commonStackProps CDK_DEFAULT_ACCOUNT CDK_DEFAULT_REGION;
         vpcId := commonVpcId |};
    NextjsStack.constructor startCase cdk "nextjs"
      {| env := commonStackProps CDK_DEFAULT_ACCOUNT CDK_DEFAULT_REGION;
         vpcId := commonVpcId |} ].

(** The program.  [Vpc.fromLookup] needs the account and the region of
    its stack: when the environment leaves one of them undefined, the first
    constructor throws at the lookup and nothing is declared. *)
Definition main (CDK_DEFAULT_ACCOUNT CDK_DEFAULT_REGION : option string)
    : option (list Stack) :=
  match CDK_DEFAULT_ACCOUNT, CDK_DEFAULT_REGION with
  | Some _, Some _ => Some (app CDK_DEFAULT_ACCOUNT CDK_DEFAULT_REGION)
  | _, _ => None
  end.
End Libraries.

End InfraSample.

(** ** Reading a declared stack *)

Inductive Kind :=
| KVpc | KSecurityGroup | KKeyPair | KRole | KCluster | KLaunchTemplate
| KAutoScalingGroup | KAsgCapacityProvider | KLogGroup | KEc2TaskDefinition
| KRepository | KEc2Service | KCfnOutput.

#[global] Instance Kind_eq_dec : EqDecision Kind.
Proof. solve_decision. Defined.

Definition kindOf (r : Resource) : Kind :=
  match r with
  | Vpc _ => KVpc
  | SecurityGroup _ => KSecurityGroup
  | KeyPair _ => KKeyPair
  | Role _ => KRole
  | Cluster _ => KCluster
  | LaunchTemplate _ => KLaunchTemplate
  | AutoScalingGroup _ => KAutoScalingGroup
  | AsgCapacityProvider _ => KAsgCapacityProvider
  | LogGroup _ => KLogGroup
  | Ec2TaskDefinition _ => KEc2TaskDefinition
  | Repository _ => KRepository
  | Ec2Service _ => KEc2Service
  | CfnOutput _ => KCfnOutput
  end.

(** The kinds of the children of a stack, in declaration order. *)
Definition kinds (s : Stack) : list Kind :=
  (fun n => kindOf (resource n)) <$> children s.

(** The construct ids of the children of a given kind. *)
Definition idsOf (k : Kind) (s : Stack) : list string :=
  nodeId <$> filter (fun n => kindOf (resource n) = k) (children s).

(** The construct at an address. *)
Definition at_ (s : Stack) (o : Ref) : option Resource :=
  resource <$> children s !! o.

Definition select {A} (f : Resource -> option A) (s : Stack) : list A :=
  omap (fun n => f (resource n)) (children s).

Definition vpcs := select (fun r => match r with Vpc v => Some v | _ => None end).
Definition securityGroups :=
  select (fun r => match r with SecurityGroup g => Some g | _ => None end).
Definition keyPairs :=
  select (fun r => match r with KeyPair k => Some k | _ => None end).
Definition roles := select (fun r => match r with Role x => Some x | _ => None end).
Definition clusters :=
  select (fun r => match r with Cluster c => Some c | _ => None end).
Definition launchTemplates :=
  select (fun r => match r with LaunchTemplate t => Some t | _ => None end).
Definition autoScalingGroups :=
  select (fun r => match r with AutoScalingGroup a => Some a | _ => None end).
Definition taskDefinitions :=
  select (fun r => match r with Ec2TaskDefinition t => Some t | _ => None end).
Definition services :=
  select (fun r => match r with Ec2Service v => Some v | _ => None end).
Definition outputs :=
  select (fun r => match r with CfnOutput o => Some o | _ => None end).

(** The auto-scaling groups behind the capacity providers of a cluster. *)
Definition capacityOf (s : Stack) (c : Ecs.Cluster)
    : list (option Autoscaling.AutoScalingGroup) :=
  (fun p =>
     match at_ s p with
     | Some (AsgCapacityProvider v) =>
         match at_ s (Ecs.autoScalingGroup v) with
         | Some (AutoScalingGroup a) => Some a
         | _ => None
         end
     | _ => None
     end) <$> Ecs.capacityProviders c.

(** The containers of all task definitions of a stack. *)
Definition containersOf (s : Stack) : list (string * Ecs.ContainerDefinition) :=
  t ← taskDefinitions s; Ecs.containers t.

(** The [cfn-signal] call that the constructor writes: the fourth of the
    commands of the user data, which starts with the four commands that the
    constructor adds to a fresh [UserData.forLinux()]. *)
Definition signalCommand (t : Ec2.LaunchTemplate) : option string :=
  Ec2.lines (Ec2.userData t) !! 3%nat.

(** ECS deployment bounds of a service.  During a deployment the scheduler
    keeps at least [minHealthyPercent] per cent of [desiredCount] tasks running,
    rounded up, and lets at most [maxHealthyPercent] per cent of
    [desiredCount] tasks run, rounded down. *)
Definition minRunningTasks (v : Ecs.Ec2Service) : Z :=
  (Ecs.desiredCount v * Ecs.minHealthyPercent v + 99) / 100.

Definition maxRunningTasks (v : Ecs.Ec2Service) : Z :=
  Ecs.desiredCount v * Ecs.maxHealthyPercent v / 100.


(** ** The common shape of the two stacks

    The overview of the specification describes one sequence of eight steps
    that both stacks follow.  [Template.declareStack] is that sequence, written
    once over the constants in which the stacks may differ; it is compared
    below with the two constructors taken from the code. *)

Module Template.

(** The per-stack constants. *)
Record StackConstants := {
  securityGroupDescription : string;
  applicationPort : Z;
  clusterName : string;
  launchTemplateId : string;
  launchTemplateName : string;
  logStreamPrefix : string;
  logGroupName : string;
  taskFamily : string;
  repositoryName : string;
  containerId : string;
  containerName : string;
  healthCheckUrl : string;
  serviceId : string
}.

Definition strapi : StackConstants :=
  {| securityGroupDescription := "Strapi Security Group";
     applicationPort := 1337;
     clusterName := "nextjs_strapi";
     launchTemplateId := "instance";
     launchTemplateName := "strapi";
     logStreamPrefix := "strapi";
     logGroupName := "strapi";
     taskFamily := "strapi";
     repositoryName := "strapi-sample";
     containerId := "strapiContainer";
     containerName := "strapi";
     healthCheckUrl := "http://localhost:1337";
     serviceId := "strapi" |}.

Definition nextjs : StackConstants :=
  {| securityGroupDescription := "Nextjs Security Group";
     applicationPort := 3000;
     clusterName := "nextjs";
     launchTemplateId := "template";
     launchTemplateName := "next";
     logStreamPrefix := "nextjs";
     logGroupName := "nextjs";
     taskFamily := "nextjs";
     repositoryName := "nextjs-sample";
     containerId := "nextjsContainer";
     containerName := "nextjs";
     healthCheckUrl := "http://localhost:3000";
     serviceId := "nextjs" |}.

Section Libraries.
Variable startCase : string -> string.
Variable cdk : Rendering.

Definition constructId (this : StackBase) (name : string) : string :=
  "stack-" +:+ id this +:+ "-" +:+ startCase name.

(** Step 1, network lookup. *)
Definition network (props : StackProps) : Build Ref :=
  new "vpc" (Vpc {| Ec2.vpcId := vpcId props |}).

(** Step 2, security boundary: administrative, HTTP, HTTPS and
    application-port traffic in, everything out. *)
Definition securityBoundary (k : StackConstants) (this : StackBase) (vpc : Ref)
    : Build Ref :=
  g <- new (constructId this "sg") (SecurityGroup
    {| Ec2.vpc := vpc;
       Ec2.description := securityGroupDescription k;
       Ec2.allowAllOutbound := true;
       Ec2.securityGroupName := constructId this "sg";
       Ec2.ingressRules := [] |}) ;;
  addIngressRule g Ec2.anyIpv4 (Ec2.tcp 22) ;;
  addIngressRule g Ec2.anyIpv4 (Ec2.tcp 80) ;;
  addIngressRule g Ec2.anyIpv4 (Ec2.tcp 443) ;;
  addIngressRule g Ec2.anyIpv4 (Ec2.tcp (applicationPort k)) ;;
  ret g.

(** Step 3, credential material. *)
Definition credential (this : StackBase) : Build Ref :=
  new (constructId this "keyPair") (KeyPair
    {| Ec2.keyPairName := constructId this "keyPair" |}).

(** Step 4, execution identity. *)
Definition identity (this : StackBase) : Build Ref :=
  new (constructId this "role") (Role
    {| Iam.roleName := constructId this "role";
       Iam.assumedBy := Iam.ServicePrincipal "ec2.amazonaws.com";
       Iam.inlinePolicies :=
         [("RetentionPolicy",
           {| Iam.statements :=
                [{| Iam.resources := ["*"];
                    Iam.actions := ["logs:PutRetentionPolicy"] |}] |})];
       Iam.managedPolicies :=
         Iam.fromAwsManagedPolicyName <$>
           ["AmazonSSMManagedInstanceCore";
            "CloudWatchAgentServerPolicy";
            "service-role/AWSAppRunnerServicePolicyForECRAccess";
            "service-role/AmazonEC2ContainerServiceforEC2Role"];
       Iam.defaultPolicy := [] |}).

(** Step 5, cluster. *)
Definition orchestration (k : StackConstants) (this : StackBase) (vpc : Ref)
    : Build Ref :=
  new (constructId this "cluster") (Cluster
    {| Ecs.vpc := vpc;
       Ecs.clusterName := clusterName k;
       Ecs.capacityProviders := [] |}).

(** Step 6, capacity: a launch template driving an auto-scaling group of
    fixed size 1, registered as a capacity provider of the cluster. *)
Definition capacity (k : StackConstants) (this : StackBase)
    (vpc securityGroup keyPair role cluster : Ref) : Build unit :=
  t <- new (constructId this (launchTemplateId k)) (LaunchTemplate
    {| Ec2.launchTemplateName := launchTemplateName k;
       Ec2.securityGroup := securityGroup;
       Ec2.instanceType := Ec2.InstanceType_of Ec2.T2 Ec2.MICRO;
       Ec2.keyPair := keyPair;
       Ec2.role := role;
       Ec2.machineImage := Ec2.EcsOptimizedImage_amazonLinux2023;
       Ec2.userData :=
         {| Ec2.lines :=
              ["#!/bin/bash";
               "yum update -y";
               "yum install -y aws-cfn-bootstrap";
               "/opt/aws/bin/cfn-signal --stack " +:+ stackName this
                 +:+ " --resource " +:+ constructId this "asg"
                 +:+ " --region us-east-1 --exit-code $?"] |} |}) ;;
  a <- newAutoScalingGroup cdk this (constructId this "asg") (
    {| Autoscaling.autoScalingGroupName := constructId this "asg";
       Autoscaling.vpc := vpc;
       Autoscaling.desiredCapacity := 1;
       Autoscaling.minCapacity := 1;
       Autoscaling.maxCapacity := 1;
       Autoscaling.terminationPolicies := [Autoscaling.OLDEST_INSTANCE];
       Autoscaling.instanceMonitoring := Autoscaling.BASIC;
       Autoscaling.init :=
         {| Ec2.configSets := [("default", ["config"])];
            Ec2.configs := [("config", {| Ec2.elements := [] |})] |};
       Autoscaling.initOptions :=
         {| Autoscaling.includeUrl := true;
            Autoscaling.includeRole := true;
            Autoscaling.printLog := true |};
       Autoscaling.launchTemplate := t;
       Autoscaling.healthCheck := Autoscaling.ec2 (Core.minutes 5);
       Autoscaling.signals := Autoscaling.waitForAll (Core.minutes 5) |}) ;;
  p <- new (constructId this "AsgCapacityProvider") (AsgCapacityProvider
    {| Ecs.autoScalingGroup := a;
       Ecs.enableManagedTerminationProtection := false |}) ;;
  addAsgCapacityProvider cdk this cluster p.

(** Step 7, workload: a task definition with one container, deployed as a
    service on the cluster. *)
Definition workload (k : StackConstants) (this : StackBase) (cluster : Ref)
    : Build Ref :=
  l <- new (constructId this "logGroup") (LogGroup
    {| Logs.logGroupName := logGroupName k |}) ;;
  t <- new (taskFamily k) (Ec2TaskDefinition
    {| Ecs.family := taskFamily k; Ecs.containers := [] |}) ;;
  r <- new (constructId this "repo") (Repository
    {| Ecr.repositoryName := repositoryName k |}) ;;
  addContainer t (constructId this (containerId k))
    {| Ecs.image := Ecs.fromEcrRepository r;
       Ecs.cpu := 256;
       Ecs.memoryReservationMiB := 256;
       Ecs.portMappings :=
         [{| Ecs.containerPort := applicationPort k;
             Ecs.hostPort := 80;
             Ecs.protocol := Ecs.TCP |}];
       Ecs.logging :=
         {| Ecs.streamPrefix := logStreamPrefix k; Ecs.logGroup := l |};
       Ecs.containerName := containerName k;
       Ecs.healthCheck :=
         {| Ecs.command :=
              ["CMD-SHELL"; "curl -f " +:+ healthCheckUrl k +:+ " || exit 1"];
            Ecs.interval := Core.seconds 30;
            Ecs.timeout := Core.seconds 5;
            Ecs.retries := 2;
            Ecs.startPeriod := Core.seconds 60 |} |} ;;
  new (constructId this (serviceId k)) (Ec2Service
    {| Ecs.cluster := cluster;
       Ecs.taskDefinition := t;
       Ecs.desiredCount := 1;
       Ecs.serviceName := constructId this "service";
       Ecs.minHealthyPercent := 0;
       Ecs.maxHealthyPercent := 100 |}).

(** Step 8, output. *)
Definition output (service : Ref) : Build unit :=
  name <- serviceName service ;;
  _ <- new "Service Name" (CfnOutput {| Core.value := name |}) ;;
  ret tt.

Definition declareStack (k : StackConstants) (id : string) (props : StackProps)
    : Stack :=
  let this := super id props in
  declare this (
    vpc <- network props ;;
    securityGroup <- securityBoundary k this vpc ;;
    keyPair <- credential this ;;
    role <- identity this ;;
    cluster <- orchestration k this vpc ;;
    capacity k this vpc securityGroup keyPair role cluster ;;
    service <- workload k this cluster ;;
    output service).

End Libraries.
End Template.

(** The addresses a construct points to: the wiring of a stack. *)
Definition refs (r : Resource) : list Ref :=
  match r with
  | SecurityGroup g => [Ec2.vpc g]
  | Cluster c => Ecs.vpc c :: Ecs.capacityProviders c
  | LaunchTemplate t => [Ec2.securityGroup t; Ec2.keyPair t; Ec2.role t]
  | AutoScalingGroup a => [Autoscaling.vpc a; Autoscaling.launchTemplate a]
  | AsgCapacityProvider p => [Ecs.autoScalingGroup p]
  | Ec2TaskDefinition t =>
      '(_, c) ← Ecs.containers t;
      match Ecs.image c with
      | Ecs.fromEcrRepository r => [r; Ecs.logGroup (Ecs.logging c)]
      end
  | Ec2Service v => [Ecs.cluster v; Ecs.taskDefinition v]
  | Vpc _ | KeyPair _ | Role _ | LogGroup _ | Repository _ | CfnOutput _ => []
  end.

(** Two constructs are alike when they are of the same kind and point to
    the same addresses. *)
Definition alike (n m : Node) : Prop :=
  kindOf (resource n) = kindOf (resource m) /\
  refs (resource n) = refs (resource m).

(** The inbound rules of a stack whose application listens on [port]. *)
Definition inbound (port : Z) : list Ec2.IngressRule :=
  (fun p => {| Ec2.peer := Ec2.anyIpv4; Ec2.connection := Ec2.tcp p |})
    <$> [22; 80; 443; port].


(** ** Wiring and names *)

(** The constructs a construct points to, each with the kind of construct
    its property expects there. *)
Definition wiring (r : Resource) : list (Ref * Kind) :=
  match r with
  | SecurityGroup g => [(Ec2.vpc g, KVpc)]
  | Cluster c =>
      (Ecs.vpc c, KVpc)
        :: ((fun p => (p, KAsgCapacityProvider)) <$> Ecs.capacityProviders c)
  | LaunchTemplate t =>
      [(Ec2.securityGroup t, KSecurityGroup); (Ec2.keyPair t, KKeyPair);
       (Ec2.role t, KRole)]
  | AutoScalingGroup a =>
      [(Autoscaling.vpc a, KVpc); (Autoscaling.launchTemplate a, KLaunchTemplate)]
  | AsgCapacityProvider p => [(Ecs.autoScalingGroup p, KAutoScalingGroup)]
  | Ec2TaskDefinition t =>
      '(_, c) ← Ecs.containers t;
      match Ecs.image c with
      | Ecs.fromEcrRepository r =>
          [(r, KRepository); (Ecs.logGroup (Ecs.logging c), KLogGroup)]
      end
  | Ec2Service v => [(Ecs.cluster v, KCluster); (Ecs.taskDefinition v, KEc2TaskDefinition)]
  | Vpc _ | KeyPair _ | Role _ | LogGroup _ | Repository _ | CfnOutput _ => []
  end.

(** Every pointer of every construct of the stack leads to a construct of
    the expected kind. *)
Definition wellWired (s : Stack) : Prop :=
  Forall (fun n =>
      Forall (fun '(o, k) => kindOf <$> at_ s o = Some k) (wiring (resource n)))
    (children s).

(** The names under which a construct creates something in the account;
    lookups of existing resources create nothing. *)
Definition physicalNames (r : Resource) : list string :=
  match r with
  | SecurityGroup g => [Ec2.securityGroupName g]
  | KeyPair k => [Ec2.keyPairName k]
  | Role x => [Iam.roleName x]
  | Cluster c => [Ecs.clusterName c]
  | LaunchTemplate t => [Ec2.launchTemplateName t]
  | AutoScalingGroup a => [Autoscaling.autoScalingGroupName a]
  | Ec2TaskDefinition t => [Ecs.family t]
  | Ec2Service v => [Ecs.serviceName v]
  | Vpc _ | AsgCapacityProvider _ | LogGroup _ | Repository _ | CfnOutput _ => []
  end.

Definition namesOf (s : Stack) : list string :=
  n ← children s; physicalNames (resource n).

(** No hyphen occurs in the string. *)
Fixpoint hyphenFree (s : string) : bool :=
  match s with
  | EmptyString => true
  | String c s' => negb (Ascii.eqb c "-"%char) && hyphenFree s'
  end.

(** The names that the constructor of each stack passes to
    [getConstructId] for the id of a construct of the stack, in the order of
    the declarations. *)
Definition strapiNames : list string :=
  ["sg"; "keyPair"; "role"; "cluster"; "instance"; "asg";
   "AsgCapacityProvider"; "logGroup"; "repo"; "strapi"].

Definition nextjsNames : list string :=
  ["sg"; "keyPair"; "role"; "cluster"; "template"; "asg";
   "AsgCapacityProvider"; "logGroup"; "repo"; "nextjs"].

(** The ports a security group lets in. *)
Definition ingressPorts (g : Ec2.SecurityGroup) : list Z :=
  (fun r => Ec2.fromPort (Ec2.connection r)) <$> Ec2.ingressRules g.


(** ** The grants of aws-cdk-lib *)

(** The statements that aws-cdk-lib 2 grants to the role at the two calls:
    one when the init configuration is attached to the auto-scaling group,
    three when the group is tied to the cluster.  References that are resolved
    at deployment are written as in a CloudFormation substitution, with the
    construct id of the cluster for its logical id; the condition of the second
    cluster statement is not modelled.  The commands are left out: they do not
    bear on the role. *)
Definition awsCdkGrants : Rendering :=
  {| attachCommands := fun _ _ _ => [];
     attachGrants := fun _ =>
       [ {| Iam.resources := ["${AWS::StackId}"];
            Iam.actions :=
              ["cloudformation:DescribeStackResource";
               "cloudformation:SignalResource"] |} ];
     registerCommands := fun _ _ => [];
     registerGrants := fun _ cluster =>
       [ {| Iam.resources := ["${" +:+ cluster +:+ ".Arn}"];
            Iam.actions :=
              ["ecs:DeregisterContainerInstance";
               "ecs:RegisterContainerInstance";
               "ecs:Submit*"] |};
         {| Iam.resources := ["*"];
            Iam.actions := ["ecs:Poll"; "ecs:StartTelemetrySession"] |};
         {| Iam.resources := ["*"];
            Iam.actions :=
              ["ecs:DiscoverPollEndpoint";
               "ecr:GetAuthorizationToken";
               "logs:CreateLogStream";
               "logs:PutLogEvents"] |} ] |}.

(** * Properties *)

(** ** Declarations and mutations *)

(** A declaration returns the address of the node it adds, and the node is
    found there. *)
Lemma new_lookup (i : string) (r : Resource) (s : Scope) :
  let '(o, s') := new i r s in
  o = length s /\ s' !! o = Some {| nodeId := i; resource := r |}.
Proof.
  cbn. split; [reflexivity|].
  rewrite lookup_app_r by lia. now rewrite Nat.sub_diag.
Qed.

(** A declaration leaves the nodes declared before it as they are. *)
Lemma new_preserves (i : string) (r : Resource) (s : Scope) (o : Ref) (n : Node) :
  s !! o = Some n -> snd (new i r s) !! o = Some n.
Proof. intros H. cbn. now apply lookup_app_l_Some. Qed.

(** A mutation declares nothing, and changes neither the construct id nor
    the kind of a node when it keeps the kind of the resource. *)
Lemma mutate_length (o : Ref) (f : Resource -> Resource) (s : Scope) :
  length (snd (mutate o f s)) = length s.
Proof. cbn. apply length_alter. Qed.

Lemma mutate_nodeId (o : Ref) (f : Resource -> Resource) (s : Scope) :
  nodeId <$> snd (mutate o f s) = nodeId <$> s.
Proof.
  cbn. revert o. induction s as [|n s IH]; intros [|o]; cbn; try reflexivity.
  now rewrite IH.
Qed.

Lemma mutate_kind (o : Ref) (f : Resource -> Resource) (s : Scope) :
  (forall r, kindOf (f r) = kindOf r) ->
  (fun n => kindOf (resource n)) <$> snd (mutate o f s)
    = (fun n => kindOf (resource n)) <$> s.
Proof.
  intros Hf. cbn. revert o.
  induction s as [|n s IH]; intros [|o]; cbn; try reflexivity.
  - now rewrite Hf.
  - now rewrite IH.
Qed.

(** The methods of the library that write to the user data and to the
    role of an auto-scaling group keep the kind of every node as well. *)
Lemma addUserData_kinds (o : Ref) (cmds : list string) (s : Scope) :
  (fun n => kindOf (resource n)) <$> snd (addUserData o cmds s)
    = (fun n => kindOf (resource n)) <$> s.
Proof.
  unfold addUserData. destruct (templateOf s o); [|reflexivity].
  apply mutate_kind. intros []; reflexivity.
Qed.

Lemma addToRolePolicy_kinds (o : Ref) (sts : list Iam.PolicyStatement) (s : Scope) :
  (fun n => kindOf (resource n)) <$> snd (addToRolePolicy o sts s)
    = (fun n => kindOf (resource n)) <$> s.
Proof.
  unfold addToRolePolicy. destruct (templateOf s o ≫= roleOf s); [|reflexivity].
  apply mutate_kind. intros []; reflexivity.
Qed.

(** The three mutating methods of the code keep the kind of every node. *)
Lemma methods_keep_kinds (o : Ref) (s : Scope) :
  (forall p c,
     (fun n => kindOf (resource n)) <$> snd (addIngressRule o p c s)
       = (fun n => kindOf (resource n)) <$> s) /\
  (forall cdk this p,
     (fun n => kindOf (resource n)) <$> snd (addAsgCapacityProvider cdk this o p s)
       = (fun n => kindOf (resource n)) <$> s) /\
  (forall i c,
     (fun n => kindOf (resource n)) <$> snd (addContainer o i c s)
       = (fun n => kindOf (resource n)) <$> s).
Proof.
  split; [|split]; intros.
  - apply mutate_kind; intros []; reflexivity.
  - unfold addAsgCapacityProvider, bind, idAt.
    assert (forall g (s0 : Scope),
               (fun n => kindOf (resource n)) <$>
                 snd ((addUserData g (registerCommands cdk this
                         (default "" (nodeId <$> s !! o))) ;;
                       addToRolePolicy g (registerGrants cdk this
                         (default "" (nodeId <$> s !! o)))) s0)
               = (fun n => kindOf (resource n)) <$> s0) as Hg.
    { intros g s0. unfold bind.
      destruct (addUserData g _ s0) as [u s1] eqn:E1.
      rewrite addToRolePolicy_kinds.
      change s1 with (snd (u, s1)). rewrite <- E1. apply addUserData_kinds. }
    destruct (resource <$> s !! p) as [[]|];
      try (rewrite mutate_kind by (intros []; reflexivity); reflexivity).
    match goal with
    | |- context [let '(_, _) := ?c in _] => destruct c as [u s1] eqn:E
    end.
    rewrite mutate_kind by (intros []; reflexivity).
    change s1 with (snd (u, s1)). rewrite <- E. apply Hg.
  - apply mutate_kind; intros []; reflexivity.
Qed.

Section Properties.

Variable startCase : string -> string.
Variable cdk : Rendering.

Local Abbreviation Strapi := (StrapiStack.constructor startCase cdk).
Local Abbreviation Nextjs := (NextjsStack.constructor startCase cdk).

(** Goals about a declared stack are split down to equations, from left
    to right, and each equation is closed by running the constructor. *)
Ltac each :=
  cbv beta; lazymatch goal with
  | |- _ /\ _ => apply conj; each
  | |- ex _ => eapply ex_intro; each
  | |- Forall _ _ =>
      first [ constructor; each | progress lazy; each ]
  | |- Forall2 _ _ _ =>
      constructor; each
  | |- _ => lazy; reflexivity
  end.

(** ** The app at a sample environment *)

(** The construct ids of the Strapi stack of the app, in declaration
    order; the task definition and the output are declared under literal ids,
    the other constructs under ids made by [getConstructId]. *)
Example strapi_construct_ids (account region : option string) :
  (fun s => nodeId <$> children s) <$> head (InfraSample.app startCase cdk account region)
  = Some [ "vpc";
           "stack-strapi-" +:+ startCase "sg";
           "stack-strapi-" +:+ startCase "keyPair";
           "stack-strapi-" +:+ startCase "role";
           "stack-strapi-" +:+ startCase "cluster";
           "stack-strapi-" +:+ startCase "instance";
           "stack-strapi-" +:+ startCase "asg";
           "stack-strapi-" +:+ startCase "AsgCapacityProvider";
           "stack-strapi-" +:+ startCase "logGroup";
           "strapi";
           "stack-strapi-" +:+ startCase "repo";
           "stack-strapi-" +:+ startCase "strapi";
           "Service Name" ].
Proof. lazy; reflexivity. Qed.

(** With the region set to [eu-west-1] both stacks are configured for
    [eu-west-1]. *)
Example app_region_eu_west_1 :
  (fun s => Core.region (environment (base s)))
    <$> InfraSample.app startCase cdk (Some "123456789012") (Some "eu-west-1")
  = [Some "eu-west-1"; Some "eu-west-1"].
Proof. reflexivity. Qed.

(** With no account or no region in the environment nothing is
    declared. *)
Example main_needs_account_and_region (account region : option string) :
  InfraSample.main startCase cdk None region = None /\
  InfraSample.main startCase cdk account None = None.
Proof. split; [reflexivity | destruct account; reflexivity]. Qed.

(** The security group of the Next.js stack after its four
    [addIngressRule] calls. *)
Example nextjs_ingress_ports (id : string) (props : StackProps) :
  (fun g => Ec2.fromPort <$> (Ec2.connection <$> Ec2.ingressRules g))
    <$> securityGroups (Nextjs id props)
  = [[22; 80; 443; 3000]].
Proof. lazy; reflexivity. Qed.

(** ** Naming *)

(** C1.  In both stacks [getConstructId] returns "stack-", the id of the
    stack, "-" and the title-cased name.  The security group, the key pair, the
    role, the auto-scaling group, the repository reference, the log-group
    reference and the service are each declared once, under a construct id
    of that form, and so is the one container of the task definition; the
    names given to the security group, the key pair, the role, the
    auto-scaling group and the service are of that form too. *)
Theorem getConstructId_convention (id : string) (props : StackProps) :
  let named n := "stack-" +:+ id +:+ "-" +:+ startCase n in
  (forall n, StrapiStack.getConstructId startCase (super id props) n = named n) /\
  (forall n, NextjsStack.getConstructId startCase (super id props) n = named n) /\
  Forall (fun s =>
      Forall (fun k => exists n, idsOf k s = [named n])
        [KSecurityGroup; KKeyPair; KRole; KAutoScalingGroup; KRepository;
         KLogGroup; KEc2Service] /\
      (exists n, fst <$> containersOf s = [named n]) /\
      Ec2.securityGroupName <$> securityGroups s = [named "sg"] /\
      Ec2.keyPairName <$> keyPairs s = [named "keyPair"] /\
      Iam.roleName <$> roles s = [named "role"] /\
      Autoscaling.autoScalingGroupName <$> autoScalingGroups s = [named "asg"] /\
      Ecs.serviceName <$> services s = [named "service"])
    [Strapi id props; Nextjs id props].
Proof.
  intros named. split; [reflexivity|]. split; [reflexivity|].
  each.
Qed.

(** ** Capacity *)

(** C2.  In both stacks the one auto-scaling group has minimum, maximum and
    desired capacity 1, the one cluster has exactly one capacity provider,
    which is backed by that group, and the one service, which runs on that
    cluster, has desired count 1. *)
Theorem scaling_bounds_one (id : string) (props : StackProps) :
  Forall (fun s =>
      exists a c v,
        autoScalingGroups s = [a] /\
        Autoscaling.minCapacity a = 1 /\
        Autoscaling.maxCapacity a = 1 /\
        Autoscaling.desiredCapacity a = 1 /\
        clusters s = [c] /\
        capacityOf s c = [Some a] /\
        services s = [v] /\
        at_ s (Ecs.cluster v) = Some (Cluster c) /\
        Ecs.desiredCount v = 1)
    [Strapi id props; Nextjs id props].
Proof. each. Qed.

(** ** Security boundary *)

(** C3.  Each stack has one security group; it allows all outbound traffic
    and has exactly four inbound rules, all TCP from any IPv4 address: ports
    22, 80, 443 and the application port, 1337 for Strapi and 3000 for
    Next.js. *)
Theorem security_group_rules (id : string) (props : StackProps) :
  Forall2 (fun s port =>
      exists g,
        securityGroups s = [g] /\
        Ec2.allowAllOutbound g = true /\
        Ec2.ingressRules g = inbound port /\
        length (Ec2.ingressRules g) = 4%nat /\
        Forall (fun r =>
            Ec2.peer r = Ec2.anyIpv4 /\
            Ec2.protocol (Ec2.connection r) = Ec2.TCP /\
            Ec2.fromPort (Ec2.connection r) = Ec2.toPort (Ec2.connection r))
          (Ec2.ingressRules g) /\
        Ec2.fromPort ∘ Ec2.connection <$> Ec2.ingressRules g
          = [22; 80; 443; port])
    [Strapi id props; Nextjs id props] [1337; 3000].
Proof. each. Qed.

(** ** Workload *)

(** C4.  Each stack has one task definition with exactly one container; the
    container has exactly one port mapping, over TCP, whose container port is
    the application port of the stack (1337 for Strapi, 3000 for Next.js),
    the port that the security group of the stack lets in. *)
Theorem container_port_mapping (id : string) (props : StackProps) :
  Forall2 (fun s port =>
      exists t cid c m g,
        taskDefinitions s = [t] /\
        Ecs.containers t = [(cid, c)] /\
        Ecs.portMappings c = [m] /\
        Ecs.containerPort m = port /\
        Ecs.protocol m = Ecs.TCP /\
        securityGroups s = [g] /\
        last (Ec2.ingressRules g)
          = Some {| Ec2.peer := Ec2.anyIpv4;
                    Ec2.connection := Ec2.tcp (Ecs.containerPort m) |})
    [Strapi id props; Nextjs id props] [1337; 3000].
Proof. each. Qed.

(** C5.  In both stacks the health check of the container has an interval
    of 30 seconds, a timeout of 5 seconds, 2 retries and a start period of
    60 seconds, and the EC2 health check of the auto-scaling group has a
    grace period of 5 minutes. *)
Theorem health_check_timing (id : string) (props : StackProps) :
  Forall (fun s =>
      exists cid c a,
        containersOf s = [(cid, c)] /\
        Ecs.interval (Ecs.healthCheck c) = Core.seconds 30 /\
        Ecs.timeout (Ecs.healthCheck c) = Core.seconds 5 /\
        Ecs.retries (Ecs.healthCheck c) = 2 /\
        Ecs.startPeriod (Ecs.healthCheck c) = Core.seconds 60 /\
        autoScalingGroups s = [a] /\
        Autoscaling.healthCheck a = Autoscaling.ec2 (Core.minutes 5) /\
        Core.toSeconds (Autoscaling.grace_of (Autoscaling.healthCheck a)) = 300)
    [Strapi id props; Nextjs id props].
Proof. each. Qed.

(** ** Execution identity *)

(** C6, as amended.  Each stack declares a single role, the one its launch
    template gives to the instances.  The role is assumed by the EC2 service
    principal and is declared with one inline policy, [RetentionPolicy], whose
    only statement allows [logs:PutRetentionPolicy] on all resources, and with
    four managed policies: [AmazonSSMManagedInstanceCore],
    [CloudWatchAgentServerPolicy],
    [service-role/AWSAppRunnerServicePolicyForECRAccess] and
    [service-role/AmazonEC2ContainerServiceforEC2Role].  Besides these it
    carries a default policy, which holds exactly what the library grants it:
    the statements granted when the auto-scaling group is declared with its
    init configuration, followed by those granted when the group is registered
    as capacity of the cluster. *)
Theorem execution_role (id : string) (props : StackProps) :
  Forall (fun s =>
      exists r t cid doc,
        roles s = [r] /\
        launchTemplates s = [t] /\
        at_ s (Ec2.role t) = Some (Role r) /\
        Iam.assumedBy r = Iam.ServicePrincipal "ec2.amazonaws.com" /\
        Iam.inlinePolicies r = [("RetentionPolicy", doc)] /\
        Iam.statements doc =
          [{| Iam.resources := ["*"];
              Iam.actions := ["logs:PutRetentionPolicy"] |}] /\
        Iam.managedPolicies r =
          [Iam.fromAwsManagedPolicyName "AmazonSSMManagedInstanceCore";
           Iam.fromAwsManagedPolicyName "CloudWatchAgentServerPolicy";
           Iam.fromAwsManagedPolicyName
             "service-role/AWSAppRunnerServicePolicyForECRAccess";
           Iam.fromAwsManagedPolicyName
             "service-role/AmazonEC2ContainerServiceforEC2Role"] /\
        idsOf KCluster s = [cid] /\
        Iam.defaultPolicy r
          = attachGrants cdk (base s) ++ registerGrants cdk (base s) cid)
    [Strapi id props; Nextjs id props].
Proof. each. Qed.

(** ** Output *)

(** C7.  Each stack declares exactly one output, and its value is the name
    of the one service of the stack. *)
Theorem single_output_is_service_name (id : string) (props : StackProps) :
  Forall (fun s =>
      exists o v,
        outputs s = [o] /\
        services s = [v] /\
        Core.value o = Ecs.serviceName v)
    [Strapi id props; Nextjs id props].
Proof. each. Qed.

(** ** Deployment *)

(** C10.  In both stacks the one service has a minimum healthy percentage
    of 0 and a maximum healthy percentage of 100 with a desired count of 1.
    The number of tasks that a deployment must keep running is therefore 0,
    and the number of tasks it may run at once is 1, the desired count itself:
    a replacement task can only start once the running task is stopped. *)
Theorem deployment_allows_zero_tasks (id : string) (props : StackProps) :
  Forall (fun s =>
      exists v,
        services s = [v] /\
        Ecs.minHealthyPercent v = 0 /\
        Ecs.maxHealthyPercent v = 100 /\
        Ecs.desiredCount v = 1 /\
        minRunningTasks v = 0 /\
        maxRunningTasks v = Ecs.desiredCount v)
    [Strapi id props; Nextjs id props].
Proof. each. Qed.

(** ** Bootstrap *)

(** C9.  Whatever account and region the environment supplies, the program
    declares its two stacks, [strapi] and [nextjs], each configured for that
    region, while the [cfn-signal] call that the constructor writes, the fourth
    command of the user data, ends in the literal region [us-east-1]; that
    command is the same for any other account and region. *)
Theorem signal_region_is_literal (account region : string) :
  let main := InfraSample.main startCase cdk in
  let signals (s : Stack) := signalCommand <$> launchTemplates s in
  exists s1 s2,
    main (Some account) (Some region) = Some [s1; s2] /\
    Forall2 (fun s name =>
        id (base s) = name /\
        Core.region (environment (base s)) = Some region /\
        exists t,
          launchTemplates s = [t] /\
          signalCommand t =
            Some ("/opt/aws/bin/cfn-signal --stack " +:+ stackName (base s)
                  +:+ " --resource "
                  +:+ ("stack-" +:+ id (base s) +:+ "-" +:+ startCase "asg")
                  +:+ " --region us-east-1 --exit-code $?") /\
          exists before,
            signalCommand t
              = Some (before +:+ " --region us-east-1 --exit-code $?"))
      [s1; s2] ["strapi"; "nextjs"] /\
    forall account' region' : string,
      exists s1' s2',
        main (Some account') (Some region') = Some [s1'; s2'] /\
        signals <$> [s1'; s2'] = signals <$> [s1; s2].
Proof.
  intros main signals. subst main.
  unfold InfraSample.main, InfraSample.app.
  do 2 eexists. split; [reflexivity|]. split.
  - constructor; [|constructor; [|constructor]].
    + split; [lazy; reflexivity|]. split; [lazy; reflexivity|]. eexists.
      split; [lazy; reflexivity|]. split; [lazy; reflexivity|].
      exists ("/opt/aws/bin/cfn-signal --stack strapi --resource stack-strapi-"
              +:+ startCase "asg").
      lazy; reflexivity.
    + split; [lazy; reflexivity|]. split; [lazy; reflexivity|]. eexists.
      split; [lazy; reflexivity|]. split; [lazy; reflexivity|].
      exists ("/opt/aws/bin/cfn-signal --stack nextjs --resource stack-nextjs-"
              +:+ startCase "asg").
      lazy; reflexivity.
  - intros account' region'. do 2 eexists. split; [reflexivity|].
    lazy; reflexivity.
Qed.

(** ** The two stacks side by side *)

(** C8.  Both stacks of the app look up the same network, and both
    constructors are the one template instantiated at the constants of the
    stack.  They declare the same kinds of constructs in the same order, wired
    to one another in the same way, and that holds for the template at any two
    sets of constants. *)
Theorem stacks_instantiate_one_template (id : string) (props : StackProps) :
  (forall account region,
     vpcs <$> InfraSample.app startCase cdk account region
       = [ [{| Ec2.vpcId := InfraSample.commonVpcId |}];
           [{| Ec2.vpcId := InfraSample.commonVpcId |}] ]) /\
  Strapi id props = Template.declareStack startCase cdk Template.strapi id props /\
  Nextjs id props = Template.declareStack startCase cdk Template.nextjs id props /\
  kinds (Strapi id props) =
    [KVpc; KSecurityGroup; KKeyPair; KRole; KCluster; KLaunchTemplate;
     KAutoScalingGroup; KAsgCapacityProvider; KLogGroup; KEc2TaskDefinition;
     KRepository; KEc2Service; KCfnOutput] /\
  kinds (Nextjs id props) = kinds (Strapi id props) /\
  Forall2 alike (children (Strapi id props)) (children (Nextjs id props)) /\
  forall k k',
    Forall2 alike
      (children (Template.declareStack startCase cdk k id props))
      (children (Template.declareStack startCase cdk k' id props)).
Proof.
  split; [intros; (lazy; reflexivity)|].
  split; [(lazy; reflexivity)|]. split; [(lazy; reflexivity)|].
  split; [(lazy; reflexivity)|]. split; [(lazy; reflexivity)|].
  split; [|intros k k']; lazy; repeat constructor.
Qed.

(** A property of both stacks is proved stack by stack. *)
Ltac both tac := constructor; [tac | constructor; [tac | constructor]].

(** A decidable closed fact is settled by deciding it. *)
Ltac decided := apply (bool_decide_unpack _); lazy; exact I.

(** ** Wiring *)

(** X1.  In both stacks every construct that another construct is given
    (the network of the security group, cluster and auto-scaling group; the
    security group, key pair and role of the launch template; the launch
    template of the auto-scaling group; the auto-scaling group of the capacity
    provider; the capacity provider of the cluster; the repository and log
    group of the container; the cluster and task definition of the service) is
    a construct of the stack of the kind that the property takes, and the stack
    declares exactly one construct of each of the thirteen kinds, so that each
    is given the only one there is. *)
Theorem references_resolve (id : string) (props : StackProps) :
  Forall (fun s =>
      wellWired s /\ forall k : Kind, length (idsOf k s) = 1%nat)
    [Strapi id props; Nextjs id props].
Proof.
  both ltac:(split; [lazy; repeat constructor | intros []; lazy; reflexivity]).
Qed.

(** X6.  In both stacks the health check of the container runs [curl]
    against [localhost] at the container port of the port mapping, written in
    decimal, and both the host port and the container port of the mapping are
    ports that the security group of the stack lets in. *)
Theorem health_check_probes_container_port (id : string) (props : StackProps) :
  Forall (fun s =>
      exists cid c m g,
        containersOf s = [(cid, c)] /\
        Ecs.portMappings c = [m] /\
        Ecs.command (Ecs.healthCheck c)
          = ["CMD-SHELL";
             "curl -f http://localhost:" +:+ pretty (Ecs.containerPort m)
               +:+ " || exit 1"] /\
        securityGroups s = [g] /\
        Ecs.hostPort m ∈ ingressPorts g /\
        Ecs.containerPort m ∈ ingressPorts g)
    [Strapi id props; Nextjs id props].
Proof.
  both ltac:(do 4 eexists; do 4 (split; [lazy; reflexivity|]); split; decided).
Qed.
(** X7.  In both stacks, for every stack id, the user data of the launch
    template starts with the four commands of the constructor: the shebang,
    the update, the installation of [aws-cfn-bootstrap], and a [cfn-signal] call
    that names the stack by its stack name and, as resource, the construct id
    of the auto-scaling group that uses this launch template, which is also the
    name of that group.  They are followed by the commands that the library
    appends when the group is declared with its init configuration, and then
    by those it appends when the group is registered as capacity of the
    cluster; there is nothing else. *)
Theorem bootstrap_signals_own_group (id : string) (props : StackProps) :
  Forall (fun s =>
      exists t a aid cid,
        launchTemplates s = [t] /\
        autoScalingGroups s = [a] /\
        idsOf KAutoScalingGroup s = [aid] /\
        idsOf KCluster s = [cid] /\
        at_ s (Autoscaling.launchTemplate a) = Some (LaunchTemplate t) /\
        Autoscaling.autoScalingGroupName a = aid /\
        Ec2.lines (Ec2.userData t)
          = [ "#!/bin/bash";
              "yum update -y";
              "yum install -y aws-cfn-bootstrap";
              "/opt/aws/bin/cfn-signal --stack " +:+ stackName (base s)
                +:+ " --resource " +:+ aid
                +:+ " --region us-east-1 --exit-code $?" ]
            ++ attachCommands cdk (base s) aid a
            ++ registerCommands cdk (base s) cid)
    [Strapi id props; Nextjs id props].
Proof.
  both ltac:(do 4 eexists; repeat apply conj; lazy; reflexivity).
Qed.

(** ** Collisions of names *)

Lemma append_cancel_l (p x y : string) : p +:+ x = p +:+ y -> x = y.
Proof.
  induction p as [|c p IH]; cbn; intros H; [assumption|].
  injection H as H. auto.
Qed.

(** The first hyphen of [i +:+ "-" +:+ x] ends [i] when [i] has none. *)
Lemma hyphen_splits (i j x y : string) :
  hyphenFree i = true -> hyphenFree j = true ->
  i +:+ "-" +:+ x = j +:+ "-" +:+ y -> i = j /\ x = y.
Proof.
  revert j. induction i as [|c i IH]; intros [|d j]; cbn; intros Hi Hj H.
  - injection H as H. auto.
  - injection H as Hc H. subst d. discriminate Hj.
  - injection H as Hc H. subst c. discriminate Hi.
  - injection H as Hc H. subst d.
    apply andb_prop in Hi as [_ Hi]. apply andb_prop in Hj as [_ Hj].
    destruct (IH j Hi Hj H) as [-> ->]. auto.
Qed.

(** X3.  For one stack, [getConstructId] gives two names the same id
    exactly when [startCase] gives them the same title-cased form, in both
    classes. *)
Theorem getConstructId_collides_iff (this : StackBase) (a b : string) :
  Forall (fun getConstructId : StackBase -> string -> string =>
      getConstructId this a = getConstructId this b <-> startCase a = startCase b)
    [StrapiStack.getConstructId startCase; NextjsStack.getConstructId startCase].
Proof.
  both ltac:(split;
    [ intros H; apply append_cancel_l in H; apply append_cancel_l in H;
      apply append_cancel_l in H; exact H
    | intros H; unfold StrapiStack.getConstructId, NextjsStack.getConstructId;
      now rewrite H ]).
Qed.

(** X4.  Two stacks whose ids differ and hold no hyphen never get the
    same id from [getConstructId], whatever names are passed, whichever of the
    two classes each stack is of. *)
Theorem getConstructId_separates_stacks (this this' : StackBase) (a b : string) :
  hyphenFree (id this) = true ->
  hyphenFree (id this') = true ->
  id this <> id this' ->
  Forall (fun f : StackBase -> string -> string =>
      Forall (fun g : StackBase -> string -> string => f this a <> g this' b)
        [StrapiStack.getConstructId startCase; NextjsStack.getConstructId startCase])
    [StrapiStack.getConstructId startCase; NextjsStack.getConstructId startCase].
Proof.
  intros Hi Hj Hne.
  both ltac:(both ltac:(
    intros H; apply (append_cancel_l "stack-") in H;
    apply hyphen_splits in H as [H _]; [exact (Hne H) | exact Hi | exact Hj])).
Qed.

(** Ids made of literals and of images of [l] under an injective [f]
    are pairwise distinct exactly when [l] has no duplicate, provided the
    literals are distinct and none of them is an image. *)
Lemma mixed_ids_unique (f : string -> string) (lits l ids : list string) :
  (forall x y, f x = f y -> x = y) ->
  ids ≡ₚ lits ++ (f <$> l) ->
  NoDup lits ->
  (forall y, f y ∉ lits) ->
  NoDup ids <-> NoDup l.
Proof.
  intros Hf Hp Hl Hout. rewrite Hp, NoDup_app. split.
  - intros (_ & _ & H). now apply NoDup_fmap_1 in H.
  - intros H. split; [assumption|]. split.
    + intros x Hx Hin. apply list_elem_of_fmap in Hin as (y & -> & _).
      exact (Hout y Hx).
    + apply NoDup_fmap_2_strong; [|assumption]. intros x y _ _. apply Hf.
Qed.

(** X2.  The constructs of a stack are declared under pairwise distinct
    construct ids exactly when [startCase] gives pairwise distinct results on
    the ten names that the constructor passes to [getConstructId]; the three
    literal ids never clash with a made one. *)
Theorem construct_ids_unique_iff (id : string) (props : StackProps) :
  (NoDup (nodeId <$> children (Strapi id props))
     <-> NoDup (startCase <$> strapiNames)) /\
  (NoDup (nodeId <$> children (Nextjs id props))
     <-> NoDup (startCase <$> nextjsNames)).
Proof.
  split.
  - apply (mixed_ids_unique (fun x => "stack-" +:+ id +:+ "-" +:+ x)
             ["vpc"; "strapi"; "Service Name"]).
    + intros x y H. now do 3 apply append_cancel_l in H.
    + lazy -[String.append]. solve_Permutation.
    + decided.
    + intros y Hin. rewrite !elem_of_cons, elem_of_nil in Hin.
      lazy in Hin. intuition congruence.
  - apply (mixed_ids_unique (fun x => "stack-" +:+ id +:+ "-" +:+ x)
             ["vpc"; "nextjs"; "Service Name"]).
    + intros x y H. now do 3 apply append_cancel_l in H.
    + lazy -[String.append]. solve_Permutation.
    + decided.
    + intros y Hin. rewrite !elem_of_cons, elem_of_nil in Hin.
      lazy in Hin. intuition congruence.
Qed.

(** X8.  The app declares two stacks with different stack names, and,
    whatever [startCase] is, no name that the first stack gives to a resource
    it creates (security group, key pair, role, cluster, launch template,
    auto-scaling group, task family, service) is a name that the second stack
    gives to one. *)
Theorem app_names_do_not_clash (account region : option string) :
  exists s1 s2,
    InfraSample.app startCase cdk account region = [s1; s2] /\
    stackName (base s1) <> stackName (base s2) /\
    Forall (fun n => n ∉ namesOf s2) (namesOf s1).
Proof.
  do 2 eexists. split; [reflexivity|]. split; [lazy; congruence|].
  lazy -[String.append elem_of not].
  repeat constructor; rewrite !not_elem_of_cons; repeat split;
    try apply not_elem_of_nil; lazy; congruence.
Qed.

(** ** Application name and init configuration *)

(** X9.  In both stacks one application name ([strapi], [nextjs]) is the
    construct id and the family of the task definition, the name of the
    container, the stream prefix of its log driver and the name of the log
    group it writes to, and the image comes from the repository of that name
    followed by [-sample]; the service runs that task definition. *)
Theorem workload_named_after_application (id : string) (props : StackProps) :
  Forall2 (fun s application =>
      exists t cid c l r v,
        taskDefinitions s = [t] /\
        Ecs.containers t = [(cid, c)] /\
        services s = [v] /\
        at_ s (Ecs.logGroup (Ecs.logging c)) = Some (LogGroup l) /\
        (match Ecs.image c with Ecs.fromEcrRepository o => at_ s o end)
          = Some (Repository r) /\
        at_ s (Ecs.taskDefinition v) = Some (Ec2TaskDefinition t) /\
        idsOf KEc2TaskDefinition s = [application] /\
        Ecs.family t = application /\
        Ecs.containerName c = application /\
        Ecs.streamPrefix (Ecs.logging c) = application /\
        Logs.logGroupName l = application /\
        Ecr.repositoryName r = application +:+ "-sample")
    [Strapi id props; Nextjs id props] ["strapi"; "nextjs"].
Proof.
  constructor; [|constructor; [|constructor]];
    (do 6 eexists; repeat apply conj; lazy; reflexivity).
Qed.

(** X10.  In both stacks the [cfn-init] configuration of the
    auto-scaling group has a config set, every config that a config set names
    is defined, every defined config is empty, and the group waits for the
    signals as long as the grace period of its health check. *)
Theorem init_config_sets_defined (id : string) (props : StackProps) :
  Forall (fun s =>
      exists a,
        autoScalingGroups s = [a] /\
        Ec2.configSets (Autoscaling.init a) <> [] /\
        Forall (fun '(_, names) =>
            Forall (fun n => n ∈ (fst <$> Ec2.configs (Autoscaling.init a))) names)
          (Ec2.configSets (Autoscaling.init a)) /\
        Forall (fun '(_, config) => Ec2.elements config = [])
          (Ec2.configs (Autoscaling.init a)) /\
        Autoscaling.signals a
          = Autoscaling.waitForAll (Autoscaling.grace_of (Autoscaling.healthCheck a)))
    [Strapi id props; Nextjs id props].
Proof.
  both ltac:(eexists; split; [lazy; reflexivity|]; split; [lazy; congruence|];
    split; [lazy -[elem_of]; repeat constructor|];
    split; [lazy; repeat constructor | lazy; reflexivity]).
Qed.

End Properties.

(** ** The separation of stacks at the ids of the app *)

(** The two stack ids of the app hold no hyphen and differ, so that the
    ids made for the two stacks differ; here with a [startCase] that leaves
    names as they are. *)
Lemma getConstructId_separates_stacks_witness :
  let startCase := fun name : string => name in
  let props :=
    {| env := InfraSample.commonStackProps None None;
       vpcId := InfraSample.commonVpcId |} in
  hyphenFree "strapi" = true /\
  hyphenFree "nextjs" = true /\
  "strapi" <> "nextjs" /\
  Forall (fun f : StackBase -> string -> string =>
      Forall (fun g : StackBase -> string -> string =>
          f (super "strapi" props) "asg" <> g (super "nextjs" props) "asg")
        [StrapiStack.getConstructId startCase; NextjsStack.getConstructId startCase])
    [StrapiStack.getConstructId startCase; NextjsStack.getConstructId startCase].
Proof.
  intros startCase props.
  split; [reflexivity|]. split; [reflexivity|]. split; [discriminate|].
  apply (getConstructId_separates_stacks startCase
           (super "strapi" props) (super "nextjs" props) "asg" "asg");
    [reflexivity | reflexivity | discriminate].
Defined.

(** ** The role under the grants of aws-cdk-lib *)

(** C6, as first stated, fails.  With the statements that aws-cdk-lib
    grants, the role of the Strapi stack of the app carries two policies, not
    one: its inline policy, and a default policy of four statements.  Neither
    [startCase], taken here to leave names as they are, nor the account and
    region bear on this. *)
Lemma execution_role_carries_default_policy :
  let s :=
    StrapiStack.constructor (fun name : string => name) awsCdkGrants "strapi"
      {| env := InfraSample.commonStackProps (Some "123456789012") (Some "us-east-1");
         vpcId := InfraSample.commonVpcId |} in
  exists r,
    roles s = [r] /\
    Iam.policies r
      <> [[{| Iam.resources := ["*"];
              Iam.actions := ["logs:PutRetentionPolicy"] |}]] /\
    length (Iam.policies r) = 2%nat /\
    length (Iam.defaultPolicy r) = 4%nat.
Proof.
  intros s. eexists. split; [lazy; reflexivity|].
  split; [|split; lazy; reflexivity].
  lazy. intros H. discriminate H.
Qed.
